(** * rollup-plugin-ts: configuration normalizer and resolved-module picker

    A shallow embedding of the five discriminator predicates and
    [getParsedCommandLine] of
    [src/util/get-parsed-command-line/get-parsed-command-line.ts], and of
    the [pickResolvedModule] accessor, followed by the properties
    established about them. *)

From stdpp Require Import base option list strings gmap fin_maps.

Local Open Scope string_scope.

Set Warnings "-register-all".

(** * Part I: the embedding *)

(** ** JavaScript data *)

(** Plain (JSON-like) JavaScript data: what compiler options hold and what
    the configuration parser consumes. *)
Inductive value : Type :=
| VUndefined
| VNull
| VBoolean (b : bool)
| VNumber (n : Z)
| VString (s : string)
| VArray (l : list value)
| VObject (o : gmap string value).

(** [ts.CompilerOptions]: a record of named switches. *)
Abbreviation CompilerOptions := (gmap string value).

(** The object spread [{...a, ...b}]: the keys of [b] win. *)
Definition spread (a b : CompilerOptions) : CompilerOptions := b ∪ a.

(** [typeof v] for plain data. *)
Definition typeof_value (v : value) : string :=
  match v with
  | VUndefined => "undefined"
  | VNull => "object"
  | VBoolean _ => "boolean"
  | VNumber _ => "number"
  | VString _ => "string"
  | VArray _ => "object"
  | VObject _ => "object"
  end.

(** [String.prototype.endsWith(searchString)] with the default end
    position: the search string must fit, and the last
    [length searchString] characters must be equal to it. *)
Definition endsWith (s searchString : string) : bool :=
  let len := String.length s in
  let searchLength := String.length searchString in
  if (searchLength <=? len)%nat
  then String.eqb (String.substring (len - searchLength)%nat searchLength s) searchString
  else false.

(** ** The resolved-module picker *)

(** [ExtendedResolvedModule], restricted to the two fields the picker
    reads; an absent (or [undefined]) field is [None]. *)
Record ExtendedResolvedModule : Type := {
  resolvedFileName : option string;
  resolvedAmbientFileName : option string
}.

(** The nullish coalescing operator [a ?? b]. *)
Definition nullish_coalesce {A} (a b : option A) : option A :=
  match a with
  | Some x => Some x
  | None => b
  end.

Definition pickResolvedModule (resolvedModule : ExtendedResolvedModule)
    (preferAmbient : bool) : option string :=
  if preferAmbient
  then nullish_coalesce (resolvedAmbientFileName resolvedModule)
                        (resolvedFileName resolvedModule)
  else resolvedFileName resolvedModule.

(** ** Configuration input and result *)

(** [TsConfigResolver]: a hook from resolved options to adjusted options.
    Hooks are taken to be pure and to return; a hook that throws is
    outside the embedding. *)
Definition TsConfigResolver : Type := CompilerOptions → CompilerOptions.

Record Diagnostic : Type := {
  code : Z;
  messageText : string
}.

(** [ts.ParsedCommandLine]: the options, the file list and the
    diagnostics; its optional fields are never touched by the code and are
    left out. *)
Record ParsedCommandLine : Type := {
  options : CompilerOptions;
  fileNames : list string;
  errors : list Diagnostic
}.

Definition set_options (o : CompilerOptions) (p : ParsedCommandLine) : ParsedCommandLine :=
  {| options := o; fileNames := fileNames p; errors := errors p |}.

Definition set_fileNames (l : list string) (p : ParsedCommandLine) : ParsedCommandLine :=
  {| options := options p; fileNames := l; errors := errors p |}.

(** Parsed command lines are JavaScript objects whose fields the code
    assigns to, so they live in a store and are passed by reference.
    Objects that the code creates or receives but never assigns to (options
    records, file lists, the parse made for the original options) are
    plain values: the store is not a count of the objects created. *)
Abbreviation loc := positive.
Abbreviation store := (gmap loc ParsedCommandLine).

(** The object members of the union type of [tsconfig]. *)
Inductive TsConfigObject : Type :=
| ParsedCommandLineObject (ref : loc)
| CompilerOptionsObject (o : CompilerOptions)
| ResolverWithFileNameObject (fileName : string) (hook : TsConfigResolver).

(** [IGetParsedCommandLineOptions["tsconfig"]], by run-time type:
    [string | Partial<CompilerOptions> | Partial<InputCompilerOptions> |
     ParsedCommandLine | TsConfigResolver | TsConfigResolverWithFileName],
    or nothing. *)
Inductive TsConfig : Type :=
| TsUndefined
| TsString (path : string)
| TsFunction (resolver : TsConfigResolver)
| TsObject (o : TsConfigObject).

Record GetParsedCommandLineResult : Type := {
  parsedCommandLine : loc;
  originalCompilerOptions : CompilerOptions
}.

(** ** The collaborators *)

(** What [parseConfigFileTextToJson] returns. *)
Record ConfigFileJson : Type := {
  config : value;
  error : option Diagnostic
}.

(** The functions and the constant the module imports: TypeScript's two
    configuration parsers (with [sys] as their host), the file-system and
    path helpers, and the declaration extension. An omitted optional
    argument of [parseJsonConfigFileContent] is [None]. They are taken to
    return: a read that fails (a directory, an unreadable file) is outside
    the embedding. *)
Class Toolchain : Type := {
  parseJsonConfigFileContent :
    value → string → option CompilerOptions → option string → ParsedCommandLine;
  parseConfigFileTextToJson : string → string → ConfigFileJson;
  fileExistsSync : string → bool;
  readFileSync : string → string;
  ensureAbsolute : string → string → string;
  DECLARATION_EXTENSION : string
}.

(** ** Effects: a store of objects and exceptions *)

Inductive Error : Type :=
| ReferenceError (message : string).

(** How a run ends. [Untyped] marks a run that has left the typed
    fragment: a type guard accepted an object that is not of the guarded
    type, or a reference is not in the store. *)
Inductive Completion (A : Type) : Type :=
| Normal (a : A)
| Throw (e : Error)
| Untyped.
Arguments Normal {A} a.
Arguments Throw {A} e.
Arguments Untyped {A}.

Definition M (A : Type) : Type := store → Completion A * store.

#[export] Instance M_ret : MRet M := λ A a σ, (Normal a, σ).

#[export] Instance M_bind : MBind M := λ A B f m σ,
  match m σ with
  | (Normal a, σ') => f a σ'
  | (Throw e, σ') => (Throw e, σ')
  | (Untyped, σ') => (Untyped, σ')
  end.

Definition throw {A} (e : Error) : M A := λ σ, (Throw e, σ).
Definition untyped {A} : M A := λ σ, (Untyped, σ).

Definition read (l : loc) : M ParsedCommandLine := λ σ,
  match σ !! l with
  | Some p => (Normal p, σ)
  | None => (Untyped, σ)
  end.

Definition write (l : loc) (p : ParsedCommandLine) : M unit := λ σ,
  (Normal (), <[l := p]> σ).

(** A new object gets a reference that is not in use. *)
Definition alloc (p : ParsedCommandLine) : M loc := λ σ,
  let l := fresh (dom σ) in (Normal l, <[l := p]> σ).

(** ** Run-time type tests *)

(** [tsconfig != null]. *)
Definition not_null (tsconfig : TsConfig) : bool :=
  match tsconfig with
  | TsUndefined => false
  | _ => true
  end.

Definition typeof (tsconfig : TsConfig) : string :=
  match tsconfig with
  | TsUndefined => "undefined"
  | TsString _ => "string"
  | TsFunction _ => "function"
  | TsObject _ => "object"
  end.

Definition ParsedCommandLine_fields : list string := ["options"; "fileNames"; "errors"].
Definition ResolverWithFileName_fields : list string := ["fileName"; "hook"].

(** [k in tsconfig]; the code only evaluates it on objects. *)
Definition has_property (k : string) (tsconfig : TsConfig) : bool :=
  match tsconfig with
  | TsObject (ParsedCommandLineObject _) => bool_decide (k ∈ ParsedCommandLine_fields)
  | TsObject (CompilerOptionsObject o) => bool_decide (is_Some (o !! k))
  | TsObject (ResolverWithFileNameObject _ _) => bool_decide (k ∈ ResolverWithFileName_fields)
  | _ => false
  end.

(** [typeof tsconfig[k]]. *)
Definition typeof_property (k : string) (tsconfig : TsConfig) : string :=
  match tsconfig with
  | TsObject (ParsedCommandLineObject _) =>
      if bool_decide (k ∈ ParsedCommandLine_fields) then "object" else "undefined"
  | TsObject (CompilerOptionsObject o) => typeof_value (default VUndefined (o !! k))
  | TsObject (ResolverWithFileNameObject _ _) =>
      if String.eqb k "fileName" then "string"
      else if String.eqb k "hook" then "function" else "undefined"
  | _ => "undefined"
  end.

(** ** The discriminators *)

Definition isParsedCommandLine (tsconfig : TsConfig) : bool :=
  not_null tsconfig && negb (String.eqb (typeof tsconfig) "string")
  && negb (String.eqb (typeof tsconfig) "function")
  && has_property "options" tsconfig && negb (has_property "hook" tsconfig).

Definition isRawCompilerOptions (tsconfig : TsConfig) : bool :=
  not_null tsconfig && negb (String.eqb (typeof tsconfig) "string")
  && negb (String.eqb (typeof tsconfig) "function")
  && negb (has_property "options" tsconfig) && negb (has_property "hook" tsconfig).

Definition isTsConfigResolver (tsconfig : TsConfig) : bool :=
  not_null tsconfig && String.eqb (typeof tsconfig) "function".

Definition isTsConfigResolverWithFileName (tsconfig : TsConfig) : bool :=
  not_null tsconfig && negb (String.eqb (typeof tsconfig) "string")
  && negb (String.eqb (typeof tsconfig) "function")
  && negb (has_property "options" tsconfig) && has_property "hook" tsconfig.

Definition isCompilerOptions (tsconfig : TsConfig) : bool :=
  not_null tsconfig && negb (String.eqb (typeof tsconfig) "string")
  && negb (String.eqb (typeof tsconfig) "function")
  && negb (has_property "options" tsconfig) && negb (has_property "hook" tsconfig)
  && ((has_property "module" tsconfig && String.eqb (typeof_property "module" tsconfig) "number")
      || (has_property "target" tsconfig && String.eqb (typeof_property "target" tsconfig) "number")
      || (has_property "jsx" tsconfig && String.eqb (typeof_property "jsx" tsconfig) "number")
      || (has_property "moduleResolution" tsconfig
          && String.eqb (typeof_property "moduleResolution" tsconfig) "number")
      || (has_property "newLine" tsconfig && String.eqb (typeof_property "newLine" tsconfig) "number")).

(** ** Narrowing *)

(** After a type guard the code uses [tsconfig] at the guarded type. The
    views below give that reading; on an object of another shape (an
    options record that happens to have an [options] or a [hook] key) the
    run leaves the typed fragment. *)
Definition asParsedCommandLine (tsconfig : TsConfig) : M loc :=
  match tsconfig with
  | TsObject (ParsedCommandLineObject l) => mret l
  | _ => untyped
  end.

Definition asCompilerOptions (tsconfig : TsConfig) : M CompilerOptions :=
  match tsconfig with
  | TsObject (CompilerOptionsObject o) => mret o
  | _ => untyped
  end.

Definition asResolver (tsconfig : TsConfig) : M TsConfigResolver :=
  match tsconfig with
  | TsFunction f => mret f
  | _ => untyped
  end.

Definition asResolverWithFileName (tsconfig : TsConfig) : M (string * TsConfigResolver) :=
  match tsconfig with
  | TsObject (ResolverWithFileNameObject fileName hook) => mret (fileName, hook)
  | _ => untyped
  end.

Definition asString (tsconfig : TsConfig) : M string :=
  match tsconfig with
  | TsString s => mret s
  | _ => untyped
  end.

(** ** getParsedCommandLine *)

Section GetParsedCommandLine.
Context `{Toolchain}.

(** The message of the [ReferenceError]. *)
Definition missing_tsconfig_message (tsconfigPath : string) : string :=
  "The given tsconfig: '" ++ tsconfigPath ++ "' doesn't exist!".

(** The first argument of [ensureAbsolute] in the last branch. *)
Definition tsconfigFileName (tsconfig : TsConfig) : M string :=
  if isTsConfigResolverWithFileName tsconfig
  then '(fileName, _) ← asResolverWithFileName tsconfig; mret fileName
  else if not_null tsconfig && negb (isTsConfigResolver tsconfig)
  then asString tsconfig
  else mret "tsconfig.json".

(** The last branch: resolve the configuration file, parse it without
    and with the forced options, and run the hook if there is one. *)
Definition resolveAndParse (cwd : string) (tsconfig : TsConfig)
    (forcedCompilerOptions : CompilerOptions) (hasProvidedTsconfig : bool)
    : M (CompilerOptions * loc) :=
  fileName ← tsconfigFileName tsconfig;
  let tsconfigPath := ensureAbsolute cwd fileName in
  tsconfigContent ←
    (if fileExistsSync tsconfigPath then mret (readFileSync tsconfigPath)
     else if negb hasProvidedTsconfig then mret ""
     else throw (ReferenceError (missing_tsconfig_message tsconfigPath)));
  let originalCompilerOptions :=
    options (parseJsonConfigFileContent
               (config (parseConfigFileTextToJson tsconfigPath tsconfigContent))
               cwd (Some ∅) (Some tsconfigPath)) in
  parsedCommandLine ←
    alloc (parseJsonConfigFileContent
             (config (parseConfigFileTextToJson tsconfigPath tsconfigContent))
             cwd (Some forcedCompilerOptions) (Some tsconfigPath));
  if isTsConfigResolver tsconfig then
    resolver ← asResolver tsconfig;
    let originalCompilerOptions :=
      spread (resolver originalCompilerOptions) forcedCompilerOptions in
    p ← read parsedCommandLine;
    write parsedCommandLine
      (set_options (spread (resolver (options p)) forcedCompilerOptions) p);;
    mret (originalCompilerOptions, parsedCommandLine)
  else if isTsConfigResolverWithFileName tsconfig then
    '(_, hook) ← asResolverWithFileName tsconfig;
    let originalCompilerOptions :=
      spread (hook originalCompilerOptions) forcedCompilerOptions in
    p ← read parsedCommandLine;
    write parsedCommandLine
      (set_options (spread (hook (options p)) forcedCompilerOptions) p);;
    mret (originalCompilerOptions, parsedCommandLine)
  else mret (originalCompilerOptions, parsedCommandLine).

Definition getParsedCommandLine (cwd : string) (tsconfig : TsConfig)
    (forcedCompilerOptions : CompilerOptions) : M GetParsedCommandLineResult :=
  let hasProvidedTsconfig := not_null tsconfig in
  '(originalCompilerOptions, parsedCommandLine) ←
    (if isParsedCommandLine tsconfig then
       tsconfig ← asParsedCommandLine tsconfig;
       p ← read tsconfig;
       let originalCompilerOptions := options p in
       write tsconfig (set_options (spread (options p) forcedCompilerOptions) p);;
       mret (originalCompilerOptions, tsconfig)
     else if isCompilerOptions tsconfig then
       tsconfig ← asCompilerOptions tsconfig;
       let originalCompilerOptions :=
         options (parseJsonConfigFileContent (VObject ∅) cwd (Some tsconfig) None) in
       parsedCommandLine ←
         alloc (parseJsonConfigFileContent (VObject ∅) cwd
                  (Some (spread tsconfig forcedCompilerOptions)) None);
       mret (originalCompilerOptions, parsedCommandLine)
     else if isRawCompilerOptions tsconfig then
       tsconfig ← asCompilerOptions tsconfig;
       let originalCompilerOptions :=
         options (parseJsonConfigFileContent
                    (VObject {[ "compilerOptions" := VObject tsconfig ]}) cwd None None) in
       parsedCommandLine ←
         alloc (parseJsonConfigFileContent
                  (VObject {[ "compilerOptions" := VObject tsconfig ]}) cwd
                  (Some forcedCompilerOptions) None);
       mret (originalCompilerOptions, parsedCommandLine)
     else resolveAndParse cwd tsconfig forcedCompilerOptions hasProvidedTsconfig);
  p ← read parsedCommandLine;
  write parsedCommandLine
    (set_fileNames (filter (λ file, endsWith file DECLARATION_EXTENSION = true) (fileNames p)) p);;
  mret {| parsedCommandLine := parsedCommandLine;
          originalCompilerOptions := originalCompilerOptions |}.

End GetParsedCommandLine.

(** ** Vocabulary of the properties *)

(** What a run returned, if it returned. *)
Definition original_of (run : Completion GetParsedCommandLineResult * store)
    : option CompilerOptions :=
  match run with
  | (Normal r, _) => Some (originalCompilerOptions r)
  | _ => None
  end.

Definition parsed_of (run : Completion GetParsedCommandLineResult * store)
    : option ParsedCommandLine :=
  match run with
  | (Normal r, σ') => σ' !! parsedCommandLine r
  | _ => None
  end.

(** The inputs of the last branch: nothing, a path, a resolver function
    or a [{fileName, hook}] record. *)
Definition resolves_file (tsconfig : TsConfig) : bool :=
  match tsconfig with
  | TsUndefined | TsString _ | TsFunction _
  | TsObject (ResolverWithFileNameObject _ _) => true
  | _ => false
  end.

Definition configFileName (tsconfig : TsConfig) : string :=
  match tsconfig with
  | TsString p => p
  | TsObject (ResolverWithFileNameObject fileName _) => fileName
  | _ => "tsconfig.json"
  end.

Definition hook_of (tsconfig : TsConfig) : option TsConfigResolver :=
  match tsconfig with
  | TsFunction resolver => Some resolver
  | TsObject (ResolverWithFileNameObject _ hook) => Some hook
  | _ => None
  end.

(** What the hook step makes of resolved options. *)
Definition hooked (tsconfig : TsConfig) (forced o : CompilerOptions) : CompilerOptions :=
  match hook_of tsconfig with
  | Some hook => spread (hook o) forced
  | None => o
  end.



(** The enum-typed fields [isCompilerOptions] looks at. *)
Definition enumFields : list string :=
  ["module"; "target"; "jsx"; "moduleResolution"; "newLine"].

(** How many of the given tests hold. *)
Definition holding (tests : list bool) : nat :=
  length (filter (λ b, b = true) tests).

Definition discriminators (tsconfig : TsConfig) : list bool :=
  [ isParsedCommandLine tsconfig; isCompilerOptions tsconfig;
    isRawCompilerOptions tsconfig; isTsConfigResolver tsconfig;
    isTsConfigResolverWithFileName tsconfig ].

Section ClosedForms.
Context `{Toolchain}.

(** The post-processing step on one parsed command line. *)
Definition declarationFilesOnly (p : ParsedCommandLine) : ParsedCommandLine :=
  set_fileNames
    (filter (λ file, endsWith file DECLARATION_EXTENSION = true) (fileNames p)) p.

(** The result for a fresh parsed command line [p]. *)
Definition fresh_result σ (original : CompilerOptions) (p : ParsedCommandLine)
    : Completion GetParsedCommandLineResult * store :=
  (Normal {| parsedCommandLine := fresh (dom σ); originalCompilerOptions := original |},
   <[fresh (dom σ) := declarationFilesOnly p]> σ).

Definition configPath (cwd : string) (tsconfig : TsConfig) : string :=
  ensureAbsolute cwd (configFileName tsconfig).

(** The configuration object read from the resolved path, or from the
    empty text when there is no file. *)
Definition configJson (cwd : string) (tsconfig : TsConfig) : value :=
  let tsconfigPath := configPath cwd tsconfig in
  config (parseConfigFileTextToJson tsconfigPath
            (if fileExistsSync tsconfigPath then readFileSync tsconfigPath else "")).

Definition parsedConfigFile (cwd : string) (tsconfig : TsConfig)
    (existing : CompilerOptions) : ParsedCommandLine :=
  parseJsonConfigFileContent (configJson cwd tsconfig) cwd (Some existing)
    (Some (configPath cwd tsconfig)).

(** Two inputs denote the same base options: without forced options
    both runs return, with the same options and the same original
    options. *)
Definition same_effective_base (cwd : string) (σ : store)
    (tsconfig1 tsconfig2 : TsConfig) : Prop :=
  let run1 := getParsedCommandLine cwd tsconfig1 ∅ σ in
  let run2 := getParsedCommandLine cwd tsconfig2 ∅ σ in
  is_Some (parsed_of run1)
  ∧ (options <$> parsed_of run1) = (options <$> parsed_of run2)
  ∧ original_of run1 = original_of run2.

(** The parser gives its existing options precedence over what it
    returns without them. *)
Definition existing_options_first : Prop :=
  ∀ json basePath existing configFileName,
    options (parseJsonConfigFileContent json basePath (Some existing) configFileName)
    = existing ∪ options (parseJsonConfigFileContent json basePath None configFileName).

(** The options an input resolves to before the hook and without any
    forced option: the first value given to [originalCompilerOptions] in
    each branch (lines 78, 85, 94 and 118). *)
Definition base_options (cwd : string) (σ : store) (tsconfig : TsConfig)
    : CompilerOptions :=
  match tsconfig with
  | TsObject (ParsedCommandLineObject l) => from_option options ∅ (σ !! l)
  | TsObject (CompilerOptionsObject o) =>
      if isCompilerOptions tsconfig
      then options (parseJsonConfigFileContent (VObject ∅) cwd (Some o) None)
      else options (parseJsonConfigFileContent
                      (VObject {[ "compilerOptions" := VObject o ]}) cwd None None)
  | _ => options (parsedConfigFile cwd tsconfig ∅)
  end.

(** A weaker law: on the [reserved] keys the parser's options do not
    depend on the existing options (it sets them itself); on every other
    key the existing options take precedence over what the parser returns
    without them. *)
Definition existing_options_over_parsed (reserved : gset string) : Prop :=
  ∀ json basePath existing configFileName k,
    options (parseJsonConfigFileContent json basePath (Some existing) configFileName) !! k
    = if decide (k ∈ reserved)
      then options (parseJsonConfigFileContent json basePath None configFileName) !! k
      else (existing ∪ options (parseJsonConfigFileContent json basePath None configFileName))
           !! k.

End ClosedForms.

(** ** An executable toolchain *)

(** An instance of the collaborators on which [getParsedCommandLine] can be
    run: a disk given as a finite map from absolute paths to file
    contents, and a configuration parser that, as TypeScript's does, lets
    the existing options take precedence over the [compilerOptions] of the
    configuration object and takes the file list from its [files]. *)
Module Sample.

Definition compilerOptions_of (json : value) : CompilerOptions :=
  match json with
  | VObject o =>
      match o !! "compilerOptions" with
      | Some (VObject c) => c
      | _ => ∅
      end
  | _ => ∅
  end.

Definition string_of (v : value) : option string :=
  match v with
  | VString s => Some s
  | _ => None
  end.

Definition files_of (json : value) : list string :=
  match json with
  | VObject o =>
      match o !! "files" with
      | Some (VArray l) => omap string_of l
      | _ => []
      end
  | _ => []
  end.

Definition parseJsonConfigFileContent (json : value) (basePath : string)
    (existingOptions : option CompilerOptions) (configFileName : option string)
    : ParsedCommandLine :=
  {| options := default ∅ existingOptions ∪ compilerOptions_of json;
     fileNames := files_of json;
     errors := [] |}.

(** The JSON reader is a table from the text of a configuration file to
    the object it denotes; any other text, the empty one included,
    reads as [{}]. *)
Definition parseConfigFileTextToJson (documents : gmap string value)
    (fileName jsonText : string) : ConfigFileJson :=
  {| config := default (VObject ∅) (documents !! jsonText); error := None |}.

Definition isAbsolute (p : string) : bool := String.prefix "/" p.

Definition ensureAbsolute (root p : string) : string :=
  if isAbsolute p then p else root ++ "/" ++ p.

Definition toolchain (disk : gmap string string) (documents : gmap string value)
    : Toolchain :=
  Build_Toolchain
    parseJsonConfigFileContent
    (parseConfigFileTextToJson documents)
    (λ p, bool_decide (is_Some (disk !! p)))
    (λ p, default "" (disk !! p))
    ensureAbsolute
    ".d.ts".

(** The same parser, recording in addition the name of the configuration
    file in the options it returns, under [configFilePath], after the
    existing options have been merged in; the key is set, to [undefined],
    also when no name is given. *)
Definition parseJsonConfigFileContentWithPath (json : value) (basePath : string)
    (existingOptions : option CompilerOptions) (configFileName : option string)
    : ParsedCommandLine :=
  let parsed := parseJsonConfigFileContent json basePath existingOptions configFileName in
  set_options
    (<[ "configFilePath" := from_option VString VUndefined configFileName ]> (options parsed))
    parsed.

Definition toolchainWithPath (disk : gmap string string) (documents : gmap string value)
    : Toolchain :=
  Build_Toolchain
    parseJsonConfigFileContentWithPath
    (parseConfigFileTextToJson documents)
    (λ p, bool_decide (is_Some (disk !! p)))
    (λ p, default "" (disk !! p))
    ensureAbsolute
    ".d.ts".

End Sample.

(** ** A project to run on *)

Module Project.

Definition cwd : string := "/project".

(** The text of [/project/tsconfig.json] (quotation marks left out) and
    the object it denotes: a configuration that lists mixed file types. *)
Definition tsconfigText : string := "{ files: [src/index.ts, src/types.d.ts] }".

Definition tsconfigJson : value :=
  VObject {[ "files" := VArray [VString "src/index.ts"; VString "src/types.d.ts"] ]}.

(** The toolchain on a disk with that file, and on an empty disk. *)
Definition withConfig : Toolchain :=
  Sample.toolchain {[ "/project/tsconfig.json" := tsconfigText ]}
                   {[ tsconfigText := tsconfigJson ]}.

Definition withoutConfig : Toolchain := Sample.toolchain ∅ ∅.

Definition forced : CompilerOptions := {[ "declaration" := VBoolean true ]}.

(** A parsed command line of the caller, at reference [1]. *)
Definition preParsed : ParsedCommandLine :=
  {| options := {[ "target" := VNumber 6 ]};
     fileNames := ["/project/src/index.ts"; "/project/src/types.d.ts"];
     errors := [ {| code := 18003; messageText := "No inputs were found" |} ] |}.

Definition heap : store := {[ 1%positive := preParsed ]}.

(** The same disk under the parser that records [configFilePath]. *)
Definition withConfigPath : Toolchain :=
  Sample.toolchainWithPath {[ "/project/tsconfig.json" := tsconfigText ]}
                           {[ tsconfigText := tsconfigJson ]}.

(** A store whose object [1] is the command line that this parser gives
    for [/project/tsconfig.json] without existing options: what a caller
    gets who parses the configuration file beforehand. *)
Definition parsedBeforehand : store :=
  {[ 1%positive := @parsedConfigFile withConfigPath cwd TsUndefined ∅ ]}.

End Project.

(** ** Other inputs *)

(** The record of Scenario D. *)
Definition scenarioD : ExtendedResolvedModule :=
  {| resolvedFileName := Some "/src/a.d.ts";
     resolvedAmbientFileName := Some "/lib/global.d.ts" |}.

(** An enum-coded options record, [{module: 1}]. *)
Definition enumCoded : TsConfig :=
  TsObject (CompilerOptionsObject {[ "module" := VNumber 1 ]}).

(** A hook that turns declaration maps on when declarations are on. *)
Definition withDeclarationMap : TsConfigResolver := λ resolved,
  match resolved !! "declaration" with
  | Some (VBoolean true) => <[ "declarationMap" := VBoolean true ]> resolved
  | _ => resolved
  end.

(** * Part II: properties *)

(** ** The discriminators on each shape of input *)

Section Shapes.
Implicit Types (l : loc) (o : CompilerOptions) (p : string) (h : TsConfigResolver).

Lemma isParsedCommandLine_object l :
  isParsedCommandLine (TsObject (ParsedCommandLineObject l)) = true.
Proof. reflexivity. Qed.

Lemma isParsedCommandLine_resolver_object p h :
  isParsedCommandLine (TsObject (ResolverWithFileNameObject p h)) = false.
Proof. reflexivity. Qed.

Lemma isRawCompilerOptions_resolver_object p h :
  isRawCompilerOptions (TsObject (ResolverWithFileNameObject p h)) = false.
Proof. reflexivity. Qed.

Lemma isCompilerOptions_resolver_object p h :
  isCompilerOptions (TsObject (ResolverWithFileNameObject p h)) = false.
Proof. reflexivity. Qed.

Lemma isTsConfigResolverWithFileName_object p h :
  isTsConfigResolverWithFileName (TsObject (ResolverWithFileNameObject p h)) = true.
Proof. reflexivity. Qed.

(** On an options record the guards are decided by its [options] and
    [hook] keys. *)
Lemma isParsedCommandLine_options o :
  isParsedCommandLine (TsObject (CompilerOptionsObject o))
  = bool_decide (is_Some (o !! "options")) && negb (bool_decide (is_Some (o !! "hook"))).
Proof. reflexivity. Qed.

Lemma isRawCompilerOptions_options o :
  isRawCompilerOptions (TsObject (CompilerOptionsObject o))
  = negb (bool_decide (is_Some (o !! "options"))) && negb (bool_decide (is_Some (o !! "hook"))).
Proof. reflexivity. Qed.

Lemma isTsConfigResolverWithFileName_options o :
  isTsConfigResolverWithFileName (TsObject (CompilerOptionsObject o))
  = negb (bool_decide (is_Some (o !! "options"))) && bool_decide (is_Some (o !! "hook")).
Proof. reflexivity. Qed.

(** On an options record, [isCompilerOptions] is [isRawCompilerOptions]
    together with the test for a numeric enum field. *)
Lemma isCompilerOptions_options (o : CompilerOptions) :
  ∃ enum : bool,
    isCompilerOptions (TsObject (CompilerOptionsObject o))
    = negb (bool_decide (is_Some (o !! "options")))
      && negb (bool_decide (is_Some (o !! "hook"))) && enum.
Proof. eexists. unfold isCompilerOptions. cbn. reflexivity. Qed.

Lemma isCompilerOptions_raw (tsconfig : TsConfig) :
  isCompilerOptions tsconfig = true → isRawCompilerOptions tsconfig = true.
Proof.
  unfold isCompilerOptions, isRawCompilerOptions.
  intros E. by apply andb_true_iff in E as [E _].
Qed.

Lemma isRawCompilerOptions_not_parsed (tsconfig : TsConfig) :
  isRawCompilerOptions tsconfig = true → isParsedCommandLine tsconfig = false.
Proof.
  unfold isParsedCommandLine, isRawCompilerOptions.
  destruct (not_null tsconfig), (negb (String.eqb (typeof tsconfig) "string")),
    (negb (String.eqb (typeof tsconfig) "function")),
    (has_property "options" tsconfig), (has_property "hook" tsconfig); done.
Qed.

End Shapes.

(** ** endsWith *)

Lemma substring_all (s : string) : String.substring 0 (String.length s) s = s.
Proof. induction s as [|a s IH]; cbn; [done | by rewrite IH]. Qed.

Lemma substring_skip (pre s : string) (m : nat) :
  String.substring (String.length pre) m (pre ++ s) = String.substring 0 m s.
Proof. induction pre as [|a pre IH]; simpl; [done | apply IH]. Qed.

Lemma length_append (s1 s2 : string) :
  String.length (s1 ++ s2) = (String.length s1 + String.length s2)%nat.
Proof. induction s1 as [|a s1 IH]; simpl; [done | by rewrite IH]. Qed.

Lemma substring_split (s : string) (n m : nat) :
  (n + m)%nat = String.length s →
  s = String.substring 0 n s ++ String.substring n m s.
Proof.
  revert n. induction s as [|a s IH]; intros [|n] E; simpl in *.
  - by destruct m.
  - discriminate.
  - subst m. simpl. by rewrite substring_all.
  - change (String a s
            = String a (String.substring 0 n s ++ String.substring n m s)).
    f_equal. apply IH. lia.
Qed.

(** [endsWith] holds exactly of the strings that are some stem followed by
    the search string. *)
Lemma endsWith_spec (s searchString : string) :
  endsWith s searchString = true ↔ ∃ stem, s = stem ++ searchString.
Proof.
  unfold endsWith. split.
  - destruct (Nat.leb_spec (String.length searchString) (String.length s)) as [Hle|];
      [|discriminate].
    intros E%String.eqb_eq.
    exists (String.substring 0 (String.length s - String.length searchString) s).
    pose proof (substring_split s (String.length s - String.length searchString)
                  (String.length searchString)) as Hs.
    rewrite E in Hs. apply Hs. lia.
  - intros [stem ->]. rewrite length_append.
    destruct (Nat.leb_spec (String.length searchString)
                (String.length stem + String.length searchString)) as [_|]; [|lia].
    replace (String.length stem + String.length searchString - String.length searchString)%nat
      with (String.length stem) by lia.
    rewrite substring_skip, substring_all. apply String.eqb_refl.
Qed.

(** ** Closed forms of a run *)

Section Runs.
Context `{Toolchain}.
Implicit Types (σ : store) (l : loc) (o : CompilerOptions) (h : TsConfigResolver).

Lemma run_parsed cwd l forced σ p :
  σ !! l = Some p →
  getParsedCommandLine cwd (TsObject (ParsedCommandLineObject l)) forced σ
  = (Normal {| parsedCommandLine := l; originalCompilerOptions := options p |},
     <[l := declarationFilesOnly (set_options (spread (options p) forced) p)]> σ).
Proof.
  intros Hl. unfold getParsedCommandLine. rewrite isParsedCommandLine_object.
  cbn. unfold mbind, M_bind, read, write. cbn. rewrite Hl. cbn.
  rewrite lookup_insert_eq. cbn. by rewrite insert_insert_eq.
Qed.

Lemma run_parsed_dangling cwd l forced σ :
  σ !! l = None →
  getParsedCommandLine cwd (TsObject (ParsedCommandLineObject l)) forced σ = (Untyped, σ).
Proof.
  intros Hl. unfold getParsedCommandLine. rewrite isParsedCommandLine_object.
  cbn. unfold mbind, M_bind, read. cbn. by rewrite Hl.
Qed.

(** Allocation followed by the post-processing step. *)
Lemma alloc_then_filter σ (original : CompilerOptions) (p : ParsedCommandLine) :
  ('(originalCompilerOptions, parsedCommandLine) ←
     (parsedCommandLine ← alloc p; mret (original, parsedCommandLine));
   q ← read parsedCommandLine;
   write parsedCommandLine (declarationFilesOnly q);;
   mret {| parsedCommandLine := parsedCommandLine;
           originalCompilerOptions := originalCompilerOptions |}) σ
  = fresh_result σ original p.
Proof.
  unfold fresh_result, mbind, M_bind, mret, M_ret, alloc, read, write. cbn.
  rewrite lookup_insert_eq. cbn. by rewrite insert_insert_eq.
Qed.

Lemma run_enum cwd o forced σ :
  isCompilerOptions (TsObject (CompilerOptionsObject o)) = true →
  getParsedCommandLine cwd (TsObject (CompilerOptionsObject o)) forced σ
  = fresh_result σ
      (options (parseJsonConfigFileContent (VObject ∅) cwd (Some o) None))
      (parseJsonConfigFileContent (VObject ∅) cwd (Some (spread o forced)) None).
Proof.
  intros E. unfold getParsedCommandLine.
  rewrite (isRawCompilerOptions_not_parsed _ (isCompilerOptions_raw _ E)), E.
  apply alloc_then_filter.
Qed.

Lemma run_raw cwd o forced σ :
  isCompilerOptions (TsObject (CompilerOptionsObject o)) = false →
  isRawCompilerOptions (TsObject (CompilerOptionsObject o)) = true →
  getParsedCommandLine cwd (TsObject (CompilerOptionsObject o)) forced σ
  = fresh_result σ
      (options (parseJsonConfigFileContent
                  (VObject {[ "compilerOptions" := VObject o ]}) cwd None None))
      (parseJsonConfigFileContent
         (VObject {[ "compilerOptions" := VObject o ]}) cwd (Some forced) None).
Proof.
  intros E1 E2. unfold getParsedCommandLine.
  rewrite (isRawCompilerOptions_not_parsed _ E2), E1, E2.
  apply alloc_then_filter.
Qed.

(** An options record with an [options] or a [hook] key passes a guard
    for another type. *)
Lemma run_options_untyped cwd o forced σ :
  isRawCompilerOptions (TsObject (CompilerOptionsObject o)) = false →
  getParsedCommandLine cwd (TsObject (CompilerOptionsObject o)) forced σ = (Untyped, σ).
Proof.
  intros E. unfold getParsedCommandLine, resolveAndParse, tsconfigFileName.
  assert (isCompilerOptions (TsObject (CompilerOptionsObject o)) = false) as ->.
  { destruct (isCompilerOptions _) eqn:E'; [|done].
    apply isCompilerOptions_raw in E'. congruence. }
  rewrite E. revert E.
  rewrite isRawCompilerOptions_options, isParsedCommandLine_options,
    isTsConfigResolverWithFileName_options.
  destruct (bool_decide (is_Some (o !! "options"))),
    (bool_decide (is_Some (o !! "hook"))); done.
Qed.

Lemma set_options_same (p : ParsedCommandLine) : set_options (options p) p = p.
Proof. by destruct p. Qed.

Lemma run_config_file cwd tsconfig forced σ :
  resolves_file tsconfig = true →
  getParsedCommandLine cwd tsconfig forced σ
  = if fileExistsSync (configPath cwd tsconfig) || negb (not_null tsconfig)
    then fresh_result σ
           (hooked tsconfig forced (options (parsedConfigFile cwd tsconfig ∅)))
           (set_options
              (hooked tsconfig forced (options (parsedConfigFile cwd tsconfig forced)))
              (parsedConfigFile cwd tsconfig forced))
    else (Throw (ReferenceError (missing_tsconfig_message (configPath cwd tsconfig))), σ).
Proof.
  intros Ht. unfold parsedConfigFile, configJson, configPath, hooked.
  destruct tsconfig as [| p | f | [l | o | p h]]; try discriminate; clear Ht;
    unfold getParsedCommandLine, resolveAndParse, tsconfigFileName;
    rewrite ?isParsedCommandLine_resolver_object, ?isCompilerOptions_resolver_object,
      ?isRawCompilerOptions_resolver_object, ?isTsConfigResolverWithFileName_object; cbn;
    unfold mbind, M_bind, mret, M_ret, throw, alloc, read, write, fresh_result; cbn;
    destruct (fileExistsSync _); cbn;
    rewrite ?lookup_insert_eq; cbn; rewrite ?lookup_insert_eq; cbn;
    rewrite ?insert_insert_eq, ?set_options_same; reflexivity.
Qed.

Lemma run_cases cwd tsconfig forced σ :
  (∃ l p, tsconfig = TsObject (ParsedCommandLineObject l) ∧ σ !! l = Some p
          ∧ getParsedCommandLine cwd tsconfig forced σ
            = (Normal {| parsedCommandLine := l; originalCompilerOptions := options p |},
               <[l := declarationFilesOnly (set_options (spread (options p) forced) p)]> σ))
  ∨ ((∀ l, tsconfig ≠ TsObject (ParsedCommandLineObject l))
     ∧ ∃ original p, getParsedCommandLine cwd tsconfig forced σ = fresh_result σ original p)
  ∨ (∃ e, getParsedCommandLine cwd tsconfig forced σ = (Throw e, σ))
  ∨ getParsedCommandLine cwd tsconfig forced σ = (Untyped, σ).
Proof.
  destruct tsconfig as [| p | f | [l | o | p h]].
  1-3, 6: rewrite run_config_file by done;
    destruct (_ || _); [right; left; split; [done | eauto] | right; right; left; eauto].
  - destruct (σ !! l) as [p|] eqn:Hl.
    + left. exists l, p. by rewrite (run_parsed _ _ _ _ _ Hl).
    + right; right; right. by apply run_parsed_dangling.
  - destruct (isRawCompilerOptions (TsObject (CompilerOptionsObject o))) eqn:Eraw.
    + right; left. split; [done|].
      destruct (isCompilerOptions (TsObject (CompilerOptionsObject o))) eqn:Eenum.
      * rewrite run_enum by done. eauto.
      * rewrite run_raw by done. eauto.
    + right; right; right. by apply run_options_untyped.
Qed.

(** With a hook, the returned options are the hook's reading of the
    options parsed with the forced ones, with the forced ones spread over
    it again. *)
Lemma hook_options cwd tsconfig hook forced σ r σ' :
  hook_of tsconfig = Some hook →
  getParsedCommandLine cwd tsconfig forced σ = (Normal r, σ') →
  (options <$> σ' !! parsedCommandLine r)
  = Some (spread (hook (options (parsedConfigFile cwd tsconfig forced))) forced).
Proof.
  intros Hhook Hrun.
  assert (resolves_file tsconfig = true) as Hfile
    by (by destruct tsconfig as [| | | [| |]]).
  rewrite (run_config_file _ _ _ _ Hfile) in Hrun.
  destruct (_ || _); [|discriminate].
  unfold fresh_result, hooked in Hrun. rewrite Hhook in Hrun.
  injection Hrun as <- <-. cbn. by rewrite lookup_insert_eq.
Qed.

Lemma fresh_unused σ : σ !! fresh (dom σ) = None.
Proof. apply not_elem_of_dom, is_fresh. Qed.

Lemma declarationFilesOnly_fileNames (p : ParsedCommandLine) :
  Forall (λ file, ∃ stem, file = stem ++ DECLARATION_EXTENSION)
         (fileNames (declarationFilesOnly p)).
Proof.
  apply Forall_forall. intros file [Hfile _]%list_elem_of_filter.
  by apply endsWith_spec.
Qed.

End Runs.

(** ** pickResolvedModule *)

(** C2. With [preferAmbient = true] the picker returns the ambient
    resolution when it is present and the concrete one otherwise; with
    [preferAmbient = false] it returns exactly [resolvedFileName],
    whatever the ambient field is. On the record of Scenario D the two
    calls give ["/lib/global.d.ts"] and ["/src/a.d.ts"]. *)
Theorem pickResolvedModule_spec (ref : ExtendedResolvedModule) :
  (∀ ambient, resolvedAmbientFileName ref = Some ambient →
              pickResolvedModule ref true = Some ambient)
  ∧ (resolvedAmbientFileName ref = None →
     pickResolvedModule ref true = resolvedFileName ref)
  ∧ pickResolvedModule ref false = resolvedFileName ref
  ∧ pickResolvedModule scenarioD true = Some "/lib/global.d.ts"
  ∧ pickResolvedModule scenarioD false = Some "/src/a.d.ts".
Proof.
  unfold pickResolvedModule, nullish_coalesce.
  repeat split; try reflexivity; intros; by simplify_option_eq.
Qed.

Lemma pickResolvedModule_spec_witness :
  pickResolvedModule {| resolvedFileName := Some "/src/b.d.ts";
                        resolvedAmbientFileName := Some "/lib/dom.d.ts" |} true
  = Some "/lib/dom.d.ts"
  ∧ pickResolvedModule {| resolvedFileName := Some "/src/b.d.ts";
                          resolvedAmbientFileName := None |} true
    = Some "/src/b.d.ts".
Proof.
  split.
  - destruct (pickResolvedModule_spec
                {| resolvedFileName := Some "/src/b.d.ts";
                   resolvedAmbientFileName := Some "/lib/dom.d.ts" |}) as (Hambient & _).
    apply Hambient. reflexivity.
  - destruct (pickResolvedModule_spec
                {| resolvedFileName := Some "/src/b.d.ts";
                   resolvedAmbientFileName := None |}) as (_ & Hconcrete & _).
    apply Hconcrete. reflexivity.
Defined.

(** C8. When at least one of the two fields is present, the
    ambient-preferring call returns a path: the picker is a total
    function with no error case, and its result is not [undefined]. *)
Theorem pickResolvedModule_ambient_defined (ref : ExtendedResolvedModule) :
  is_Some (resolvedFileName ref) ∨ is_Some (resolvedAmbientFileName ref) →
  is_Some (pickResolvedModule ref true).
Proof.
  unfold pickResolvedModule, nullish_coalesce.
  destruct (resolvedAmbientFileName ref) as [a|]; [eauto|].
  intros [Hc | Ha]; [done|]. by destruct Ha.
Qed.

Lemma pickResolvedModule_ambient_defined_witness :
  is_Some (pickResolvedModule {| resolvedFileName := Some "/src/b.d.ts";
                                 resolvedAmbientFileName := None |} true).
Proof.
  apply pickResolvedModule_ambient_defined. left. cbn. eauto.
Defined.

(** C10. The picker is total; on a record with both fields absent it
    returns [undefined] for either value of [preferAmbient]. *)
Theorem pickResolvedModule_unresolved (ref : ExtendedResolvedModule) (preferAmbient : bool) :
  resolvedFileName ref = None →
  resolvedAmbientFileName ref = None →
  pickResolvedModule ref preferAmbient = None.
Proof.
  intros Hc Ha. unfold pickResolvedModule, nullish_coalesce.
  rewrite Ha, Hc. by destruct preferAmbient.
Qed.

Lemma pickResolvedModule_unresolved_witness :
  pickResolvedModule {| resolvedFileName := None; resolvedAmbientFileName := None |} true
  = None.
Proof.
  apply pickResolvedModule_unresolved; reflexivity.
Defined.

(** ** Which discriminators hold *)

(** Not every input satisfies exactly one discriminator: an enum-coded
    record satisfies two, a path or an absent input none. *)
Lemma discriminators_not_exactly_one :
  holding (discriminators enumCoded) = 2
  ∧ isCompilerOptions enumCoded = true ∧ isRawCompilerOptions enumCoded = true
  ∧ holding (discriminators TsUndefined) = 0
  ∧ holding (discriminators (TsString "tsconfig.json")) = 0.
Proof. repeat split; vm_compute; reflexivity. Qed.

(** C4, amended. The discriminators other than [isCompilerOptions] are
    mutually exclusive; [isCompilerOptions] implies
    [isRawCompilerOptions], so an enum-coded record satisfies both and
    the order of these two tests decides its branch; and none of the five
    holds exactly for an absent input, a path string, and an options
    record with both an [options] and a [hook] key. *)
Theorem discriminators_overlap (tsconfig : TsConfig) :
  (holding [ isParsedCommandLine tsconfig; isRawCompilerOptions tsconfig;
             isTsConfigResolver tsconfig; isTsConfigResolverWithFileName tsconfig ] ≤ 1)%nat
  ∧ (isCompilerOptions tsconfig = true → isRawCompilerOptions tsconfig = true)
  ∧ (holding (discriminators tsconfig) = 0 ↔
     tsconfig = TsUndefined ∨ (∃ p, tsconfig = TsString p)
     ∨ (∃ o, tsconfig = TsObject (CompilerOptionsObject o)
             ∧ is_Some (o !! "options") ∧ is_Some (o !! "hook"))).
Proof.
  split; [|split; [apply isCompilerOptions_raw|]].
  - destruct tsconfig as [| p | f | [l | o | p h]]; try (vm_compute; lia).
    rewrite isParsedCommandLine_options, isRawCompilerOptions_options,
      isTsConfigResolverWithFileName_options.
    destruct (bool_decide (is_Some (o !! "options"))),
      (bool_decide (is_Some (o !! "hook"))); vm_compute; lia.
  - destruct tsconfig as [| p | f | [l | o | p h]].
    + split; [by left | reflexivity].
    + split; [right; left; by exists p | reflexivity].
    + split; [discriminate | intros [?|[[? ?]|(? & ? & _)]]; discriminate].
    + split; [discriminate | intros [?|[[? ?]|(? & ? & _)]]; discriminate].
    + unfold discriminators.
      destruct (isCompilerOptions_options o) as [enum ->].
      rewrite isParsedCommandLine_options, isRawCompilerOptions_options,
        isTsConfigResolverWithFileName_options.
      destruct (bool_decide_reflect (is_Some (o !! "options"))) as [Ho | Ho],
        (bool_decide_reflect (is_Some (o !! "hook"))) as [Hh | Hh];
        cbn; (split; [intros E | intros [E|[[? E]|(o' & E & Ho' & Hh')]]]);
        try discriminate; try (destruct enum; discriminate).
      * right; right. by exists o.
      * reflexivity.
      * injection E as ->. contradiction.
      * injection E as ->. contradiction.
      * injection E as ->. contradiction.
    + split; [discriminate | intros [?|[[? ?]|(? & ? & _)]]; discriminate].
Qed.

Lemma discriminators_overlap_witness :
  isRawCompilerOptions enumCoded = true
  ∧ holding (discriminators (TsString "tsconfig.custom.json")) = 0.
Proof.
  destruct (discriminators_overlap enumCoded) as (_ & Hraw & _).
  destruct (discriminators_overlap (TsString "tsconfig.custom.json")) as (_ & _ & Hnone).
  split.
  - apply Hraw. reflexivity.
  - apply Hnone. right; left. by exists "tsconfig.custom.json".
Defined.

(** ** The file list *)

Section FileNames.
Context `{Toolchain}.

(** C7. Whatever the configuration input, every entry of the file list
    of the returned parsed command line ends with the declaration
    extension. *)
Theorem fileNames_declarations_only cwd tsconfig forced (σ : store) r σ' :
  getParsedCommandLine cwd tsconfig forced σ = (Normal r, σ') →
  ∃ p, σ' !! parsedCommandLine r = Some p
       ∧ Forall (λ file, ∃ stem, file = stem ++ DECLARATION_EXTENSION) (fileNames p).
Proof.
  intros Hrun.
  destruct (run_cases cwd tsconfig forced σ)
    as [(l & p & _ & _ & E) | [(_ & original & p & E) | [(e & E) | E]]];
    rewrite E in Hrun; try discriminate.
  - injection Hrun as <- <-. eexists. split; [apply lookup_insert_eq|].
    apply declarationFilesOnly_fileNames.
  - unfold fresh_result in Hrun. injection Hrun as <- <-.
    eexists. split; [apply lookup_insert_eq|].
    apply declarationFilesOnly_fileNames.
Qed.

End FileNames.

(** On the sample project, the configuration file lists [src/index.ts] and
    [src/types.d.ts]; only the latter is returned. *)
Lemma fileNames_declarations_only_witness :
  ∃ r σ',
    @getParsedCommandLine Project.withConfig Project.cwd (TsString "tsconfig.json")
      Project.forced ∅ = (Normal r, σ')
    ∧ (fileNames <$> σ' !! parsedCommandLine r) = Some ["src/types.d.ts"]
    ∧ ∃ p, σ' !! parsedCommandLine r = Some p
           ∧ Forall (λ file, ∃ stem, file = stem ++ ".d.ts") (fileNames p).
Proof.
  eexists _, _. split; [reflexivity|]. split; [vm_compute; reflexivity|].
  apply (@fileNames_declarations_only Project.withConfig Project.cwd
           (TsString "tsconfig.json") Project.forced ∅).
  reflexivity.
Defined.

(** ** A pre-parsed command line *)

(** On the sample project the caller's parsed command line lists
    [index.ts] and [types.d.ts]; the returned one lists only the latter:
    the file list is not kept as it is. *)
Lemma preparsed_fileNames_not_kept :
  isParsedCommandLine (TsObject (ParsedCommandLineObject 1)) = true
  ∧ (fileNames <$> Project.heap !! 1%positive)
    = Some ["/project/src/index.ts"; "/project/src/types.d.ts"]
  ∧ (fileNames <$> parsed_of
       (@getParsedCommandLine Project.withoutConfig Project.cwd
          (TsObject (ParsedCommandLineObject 1)) Project.forced Project.heap))
    = Some ["/project/src/types.d.ts"].
Proof. repeat split; vm_compute; reflexivity. Qed.

Section PreParsed.
Context `{Toolchain}.

(** C6, amended. For a pre-parsed command line the run returns that
    same object with its diagnostics as they were, its file list
    restricted to the entries that end with the declaration extension,
    and its options replaced by [{...options, ...forced}], in which every
    forced key has the forced value and every other key its old one; the
    options it had are returned as [originalCompilerOptions]. *)
Theorem preparsed_result cwd (l : loc) forced (σ : store) p :
  σ !! l = Some p →
  isParsedCommandLine (TsObject (ParsedCommandLineObject l)) = true
  ∧ ∃ σ',
      getParsedCommandLine cwd (TsObject (ParsedCommandLineObject l)) forced σ
      = (Normal {| parsedCommandLine := l; originalCompilerOptions := options p |}, σ')
      ∧ σ' !! l
        = Some {| options := spread (options p) forced;
                  fileNames := filter (λ file, endsWith file DECLARATION_EXTENSION = true)
                                      (fileNames p);
                  errors := errors p |}
      ∧ (∀ k v, forced !! k = Some v → spread (options p) forced !! k = Some v)
      ∧ (∀ k, forced !! k = None → spread (options p) forced !! k = options p !! k).
Proof.
  intros Hl. split; [reflexivity|].
  eexists. split; [by apply run_parsed|]. split; [apply lookup_insert_eq|].
  unfold spread. split.
  - intros k v Hk. by apply lookup_union_Some_l.
  - intros k Hk. by apply lookup_union_r.
Qed.

End PreParsed.

Lemma preparsed_result_witness :
  ∃ σ',
    @getParsedCommandLine Project.withoutConfig Project.cwd
      (TsObject (ParsedCommandLineObject 1)) Project.forced Project.heap
    = (Normal {| parsedCommandLine := 1;
                 originalCompilerOptions := {[ "target" := VNumber 6 ]} |}, σ')
    ∧ (errors <$> σ' !! 1%positive) = Some (errors Project.preParsed).
Proof.
  destruct (@preparsed_result Project.withoutConfig Project.cwd 1 Project.forced
              Project.heap Project.preParsed) as (_ & σ' & Hrun & Hσ' & _).
  - reflexivity.
  - exists σ'. split; [exact Hrun|]. by rewrite Hσ'.
Defined.

(** ** Effects on the store *)

(** The caller's parsed command line is modified: after the run it has
    the forced [declaration] option and has lost [index.ts]. *)
Lemma preparsed_object_modified :
  let σ' := (@getParsedCommandLine Project.withoutConfig Project.cwd
               (TsObject (ParsedCommandLineObject 1)) Project.forced Project.heap).2 in
  (Project.heap !! 1%positive ≫= λ p, options p !! "declaration") = None
  ∧ (σ' !! 1%positive ≫= λ p, options p !! "declaration") = Some (VBoolean true)
  ∧ (fileNames <$> Project.heap !! 1%positive)
    = Some ["/project/src/index.ts"; "/project/src/types.d.ts"]
  ∧ (fileNames <$> σ' !! 1%positive) = Some ["/project/src/types.d.ts"].
Proof. repeat split; vm_compute; reflexivity. Qed.

Section Frame.
Context `{Toolchain}.

(** C9, amended. A run changes no object of the store other than a
    caller-supplied pre-parsed command line: every other object is the
    same after the run as before (the result of the other variants is a
    new object). The pre-parsed command line itself is updated in place,
    in its [options] and its [fileNames], and is the object returned. *)
Theorem getParsedCommandLine_frame cwd tsconfig forced (σ : store) c σ' :
  getParsedCommandLine cwd tsconfig forced σ = (c, σ') →
  (∀ l p, tsconfig ≠ TsObject (ParsedCommandLineObject l) →
          σ !! l = Some p → σ' !! l = Some p)
  ∧ (∀ l p, tsconfig = TsObject (ParsedCommandLineObject l) → σ !! l = Some p →
            c = Normal {| parsedCommandLine := l; originalCompilerOptions := options p |}
            ∧ σ' !! l = Some (declarationFilesOnly
                                (set_options (spread (options p) forced) p))
            ∧ ∀ l', l' ≠ l → σ' !! l' = σ !! l').
Proof.
  intros Hrun.
  destruct (run_cases cwd tsconfig forced σ)
    as [(l0 & p0 & -> & Hl0 & E) | [(Hnot & original & p0 & E) | [(e & E) | E]]];
    rewrite E in Hrun.
  - injection Hrun as <- <-. split.
    + intros l p Hne Hl. rewrite lookup_insert_ne; [done | congruence].
    + intros l p [= <-] Hl. rewrite Hl0 in Hl. injection Hl as <-.
      split; [done|]. split; [apply lookup_insert_eq|].
      intros l' Hne. by apply lookup_insert_ne.
  - unfold fresh_result in Hrun. injection Hrun as <- <-. split.
    + intros l p _ Hl. rewrite lookup_insert_ne; [done|].
      intros <-. by rewrite fresh_unused in Hl.
    + intros l p ->. by destruct (Hnot l).
  - injection Hrun as <- <-. split; [done|].
    intros l p -> Hl. destruct (run_cases cwd (TsObject (ParsedCommandLineObject l)) forced σ)
      as [(l0 & p0 & _ & _ & E') | [(Hnot & _) | [(e' & E') | E']]].
    + rewrite E' in E. discriminate.
    + by destruct (Hnot l).
    + by rewrite (run_parsed _ _ _ _ _ Hl) in E.
    + by rewrite (run_parsed _ _ _ _ _ Hl) in E.
  - injection Hrun as <- <-. split; [done|].
    intros l p -> Hl. by rewrite (run_parsed _ _ _ _ _ Hl) in E.
Qed.

End Frame.

Lemma getParsedCommandLine_frame_witness :
  (@getParsedCommandLine Project.withConfig Project.cwd (TsString "tsconfig.json")
     Project.forced Project.heap).2 !! 1%positive = Some Project.preParsed.
Proof.
  destruct (@getParsedCommandLine Project.withConfig Project.cwd (TsString "tsconfig.json")
              Project.forced Project.heap) as [c σ'] eqn:Hrun.
  destruct (@getParsedCommandLine_frame Project.withConfig _ _ _ _ _ _ Hrun) as [Hframe _].
  apply Hframe; [discriminate | reflexivity].
Defined.

(** ** The missing configuration file *)


Section MissingConfig.
Context `{Toolchain}.


End MissingConfig.


(** ** The original options *)

Section Original.
Context `{Toolchain}.

(** With a hook, every forced option is in [originalCompilerOptions]. *)
Lemma hook_original_has_forced cwd tsconfig hook forced (σ : store) r σ' :
  hook_of tsconfig = Some hook →
  getParsedCommandLine cwd tsconfig forced σ = (Normal r, σ') →
  ∀ k v, forced !! k = Some v → originalCompilerOptions r !! k = Some v.
Proof.
  intros Hhook Hrun k v Hk.
  assert (resolves_file tsconfig = true) as Hfile
    by (by destruct tsconfig as [| | | [| |]]).
  rewrite (run_config_file _ _ _ _ Hfile) in Hrun.
  destruct (_ || _); [|discriminate].
  unfold fresh_result, hooked in Hrun. rewrite Hhook in Hrun.
  injection Hrun as <- <-. cbn. unfold spread. by apply lookup_union_Some_l.
Qed.

(** X6. Without a hook, [originalCompilerOptions] does not depend on the
    forced options: two runs on the same input and store that differ only
    in the forced options return the same original options. *)
Lemma original_without_hook cwd tsconfig forced forced' (σ : store) r σ' r' σ'' :
  hook_of tsconfig = None →
  getParsedCommandLine cwd tsconfig forced σ = (Normal r, σ') →
  getParsedCommandLine cwd tsconfig forced' σ = (Normal r', σ'') →
  originalCompilerOptions r = originalCompilerOptions r'.
Proof.
  intros Hhook Hrun Hrun'.
  destruct tsconfig as [| p | f | [l | o | p h]]; try discriminate.
  1, 2: rewrite run_config_file in Hrun, Hrun' by done;
    destruct (_ || _); [|discriminate];
    unfold fresh_result, hooked in *; cbn in *;
    injection Hrun as <- <-; by injection Hrun' as <- <-.
  - destruct (σ !! l) as [p|] eqn:Hl.
    + rewrite (run_parsed _ _ forced _ _ Hl) in Hrun.
      rewrite (run_parsed _ _ forced' _ _ Hl) in Hrun'.
      injection Hrun as <- <-. by injection Hrun' as <- <-.
    + by rewrite run_parsed_dangling in Hrun.
  - destruct (isRawCompilerOptions (TsObject (CompilerOptionsObject o))) eqn:Eraw.
    + destruct (isCompilerOptions (TsObject (CompilerOptionsObject o))) eqn:Eenum.
      * rewrite run_enum in Hrun, Hrun' by done. unfold fresh_result in *.
        injection Hrun as <- <-. by injection Hrun' as <- <-.
      * rewrite run_raw in Hrun, Hrun' by done. unfold fresh_result in *.
        injection Hrun as <- <-. by injection Hrun' as <- <-.
    + by rewrite run_options_untyped in Hrun.
Qed.

End Original.

(** On the sample project, whose configuration file sets no compiler
    option, the runs with the identity hook return; without forced options
    their original options have no [declaration] key, and under the forced
    [declaration: true] they have it, with the forced value. *)
Lemma resolver_original_leaks_forced :
  let resolver := TsFunction (λ resolved, resolved) in
  let record := TsObject (ResolverWithFileNameObject "tsconfig.json" (λ resolved, resolved)) in
  let original tsconfig forced :=
    original_of
      (@getParsedCommandLine Project.withConfigPath Project.cwd tsconfig forced ∅) in
  let declaration (o : option CompilerOptions) := o ≫= λ o, o !! "declaration" in
  is_Some (original resolver ∅) ∧ declaration (original resolver ∅) = None
  ∧ declaration (original resolver Project.forced) = Some (VBoolean true)
  ∧ is_Some (original record ∅) ∧ declaration (original record ∅) = None
  ∧ declaration (original record Project.forced) = Some (VBoolean true).
Proof. cbv zeta. repeat split; vm_compute; eauto. Qed.

Section OriginalOptions.
Context `{Toolchain}.

(** C1, amended. The original options a run returns are the options the
    input resolves to without any forced option, passed through the hook
    step. Without a hook (pre-parsed, enum-coded, raw, a path, nothing)
    they are those options themselves, in which the forced options play
    no part. With a resolver function or a [{fileName, hook}] record they
    are [{...hook(options), ...forced}], so that every forced option is in
    them with its forced value. *)
Theorem original_options_closed_form cwd tsconfig forced (σ : store) r σ' :
  getParsedCommandLine cwd tsconfig forced σ = (Normal r, σ') →
  originalCompilerOptions r = hooked tsconfig forced (base_options cwd σ tsconfig)
  ∧ (hook_of tsconfig = None → originalCompilerOptions r = base_options cwd σ tsconfig)
  ∧ (∀ hook, hook_of tsconfig = Some hook →
       originalCompilerOptions r = spread (hook (base_options cwd σ tsconfig)) forced
       ∧ ∀ k v, forced !! k = Some v → originalCompilerOptions r !! k = Some v).
Proof.
  intros Hrun.
  assert (originalCompilerOptions r
          = hooked tsconfig forced (base_options cwd σ tsconfig)) as Horiginal.
  { destruct tsconfig as [| p | f | [l | o | p h]].
    1-3, 6: rewrite run_config_file in Hrun by done;
      destruct (_ || _); [|discriminate];
      unfold fresh_result in Hrun; by injection Hrun as <- <-.
    - destruct (σ !! l) as [p|] eqn:Hl.
      + rewrite (run_parsed _ _ _ _ _ Hl) in Hrun. injection Hrun as <- <-.
        unfold hooked, base_options. cbn. by rewrite Hl.
      + by rewrite run_parsed_dangling in Hrun.
    - unfold hooked, base_options. cbn [hook_of].
      destruct (isRawCompilerOptions (TsObject (CompilerOptionsObject o))) eqn:Eraw.
      + destruct (isCompilerOptions (TsObject (CompilerOptionsObject o))) eqn:Eenum.
        * rewrite run_enum in Hrun by done. unfold fresh_result in Hrun.
          by injection Hrun as <- <-.
        * rewrite run_raw in Hrun by done. unfold fresh_result in Hrun.
          by injection Hrun as <- <-.
      + by rewrite run_options_untyped in Hrun. }
  split; [done|]. split.
  - intros Hhook. rewrite Horiginal. unfold hooked. by rewrite Hhook.
  - intros hook Hhook.
    assert (originalCompilerOptions r
            = spread (hook (base_options cwd σ tsconfig)) forced) as ->.
    { rewrite Horiginal. unfold hooked. by rewrite Hhook. }
    split; [done|]. intros k v Hk. unfold spread. by apply lookup_union_Some_l.
Qed.

End OriginalOptions.

(** The path to the configuration file and the resolver function over
    it, under the forced [declaration: true]. *)
Lemma original_options_closed_form_witness :
  ∃ r1 σ1 r2 σ2,
    @getParsedCommandLine Project.withConfigPath Project.cwd (TsString "tsconfig.json")
      Project.forced ∅ = (Normal r1, σ1)
    ∧ @getParsedCommandLine Project.withConfigPath Project.cwd
        (TsFunction (λ resolved, resolved)) Project.forced ∅ = (Normal r2, σ2)
    ∧ originalCompilerOptions r1
      = @base_options Project.withConfigPath Project.cwd ∅ (TsString "tsconfig.json")
    ∧ originalCompilerOptions r2 !! "declaration" = Some (VBoolean true).
Proof.
  eexists _, _, _, _. split; [reflexivity|]. split; [reflexivity|]. split.
  - edestruct (@original_options_closed_form Project.withConfigPath Project.cwd
                 (TsString "tsconfig.json") Project.forced ∅) as (_ & Hfree & _);
      [reflexivity|].
    apply Hfree. reflexivity.
  - edestruct (@original_options_closed_form Project.withConfigPath Project.cwd
                 (TsFunction (λ resolved, resolved)) Project.forced ∅) as (_ & _ & Hhook);
      [reflexivity|].
    apply (Hhook (λ resolved, resolved) eq_refl). reflexivity.
Defined.

(** ** Independence of the variant *)

Lemma sample_existing_options_first disk documents :
  @existing_options_first (Sample.toolchain disk documents).
Proof.
  intros json basePath existing configFileName. cbn.
  unfold Sample.parseJsonConfigFileContent. cbn. by rewrite (left_id_L ∅ (∪)).
Qed.

Section HookFree.
Context `{Toolchain}.
Hypothesis parser_law : existing_options_first.

(** Without a hook the returned options are the original ones with
    the forced ones spread over them. *)
Lemma hook_free_options cwd tsconfig forced (σ : store) r σ' :
  hook_of tsconfig = None →
  getParsedCommandLine cwd tsconfig forced σ = (Normal r, σ') →
  (options <$> σ' !! parsedCommandLine r)
  = Some (spread (originalCompilerOptions r) forced).
Proof.
  intros Hhook Hrun. unfold spread.
  destruct tsconfig as [| p | f | [l | o | p h]]; try discriminate.
  1, 2: rewrite run_config_file in Hrun by done;
    destruct (_ || _); [|discriminate];
    unfold fresh_result, hooked, parsedConfigFile in *; cbn in *;
    injection Hrun as <- <-; cbn; rewrite lookup_insert_eq; cbn;
    by rewrite !parser_law, (left_id_L ∅ (∪)).
  - destruct (σ !! l) as [p|] eqn:Hl.
    + rewrite (run_parsed _ _ _ _ _ Hl) in Hrun. injection Hrun as <- <-.
      cbn. by rewrite lookup_insert_eq.
    + by rewrite run_parsed_dangling in Hrun.
  - destruct (isRawCompilerOptions (TsObject (CompilerOptionsObject o))) eqn:Eraw.
    + destruct (isCompilerOptions (TsObject (CompilerOptionsObject o))) eqn:Eenum.
      * rewrite run_enum in Hrun by done. unfold fresh_result in *.
        injection Hrun as <- <-. cbn. rewrite lookup_insert_eq. cbn.
        unfold spread. by rewrite !parser_law, (assoc_L (∪)).
      * rewrite run_raw in Hrun by done. unfold fresh_result in *.
        injection Hrun as <- <-. cbn. rewrite lookup_insert_eq. cbn.
        by rewrite parser_law.
    + by rewrite run_options_untyped in Hrun.
Qed.

End HookFree.

(** The parser that records [configFilePath] obeys the weaker law, with
    that key reserved. *)
Lemma sample_with_path_law disk documents :
  @existing_options_over_parsed (Sample.toolchainWithPath disk documents)
    {[ "configFilePath" ]}.
Proof.
  intros json basePath existing configFileName k. cbn.
  unfold Sample.parseJsonConfigFileContentWithPath, Sample.parseJsonConfigFileContent. cbn.
  destruct (decide (k ∈ ({[ "configFilePath" ]} : gset string))) as [Hk | Hk].
  - apply elem_of_singleton in Hk as ->. by rewrite !lookup_insert_eq.
  - assert ("configFilePath" ≠ k) as Hne by set_solver.
    rewrite lookup_insert_ne by done.
    rewrite !lookup_union, lookup_insert_ne by done.
    by rewrite lookup_union, lookup_empty, (left_id_L None _).
Qed.

(** On the sample project: a command line parsed beforehand from the
    configuration file and a resolver function over the same file denote
    the same base options, both runs return under the forced
    [declaration: true], and only the resolver variant ends with
    [declarationMap]. *)
Lemma hook_breaks_variant_independence :
  let preParsed := TsObject (ParsedCommandLineObject 1) in
  let resolver := TsFunction withDeclarationMap in
  let returned tsconfig :=
    parsed_of (@getParsedCommandLine Project.withConfigPath Project.cwd tsconfig
                 Project.forced Project.parsedBeforehand) in
  let declarationMap tsconfig := returned tsconfig ≫= λ p, options p !! "declarationMap" in
  @same_effective_base Project.withConfigPath Project.cwd Project.parsedBeforehand
    preParsed resolver
  ∧ is_Some (returned preParsed) ∧ is_Some (returned resolver)
  ∧ declarationMap preParsed = None
  ∧ declarationMap resolver = Some (VBoolean true).
Proof.
  cbv zeta. split; [|repeat split; vm_compute; eauto].
  unfold same_effective_base. cbv zeta.
  split; [vm_compute; eauto | split; vm_compute; reflexivity].
Qed.

Section ReservedKeys.
Context `{Toolchain}.
Variable reserved : gset string.
Hypothesis parser_law : existing_options_over_parsed reserved.

Lemma parse_without_existing json basePath configFileName :
  options (parseJsonConfigFileContent json basePath (Some ∅) configFileName)
  = options (parseJsonConfigFileContent json basePath None configFileName).
Proof.
  apply map_eq. intros k. rewrite parser_law.
  destruct (decide (k ∈ reserved)); [done|]. by rewrite (left_id_L ∅ (∪)).
Qed.

Lemma parse_with_more_existing (forced : CompilerOptions) json basePath existing
    configFileName :
  (∀ k, k ∈ reserved → forced !! k = None) →
  options (parseJsonConfigFileContent json basePath (Some (forced ∪ existing))
             configFileName)
  = forced ∪ options (parseJsonConfigFileContent json basePath (Some existing)
                        configFileName).
Proof.
  intros Hfree. apply map_eq. intros k.
  rewrite lookup_union, !parser_law.
  destruct (decide (k ∈ reserved)) as [Hk|Hk].
  - rewrite (Hfree k Hk). by destruct (options _ !! k).
  - by rewrite <- lookup_union, (assoc_L (∪)).
Qed.

(** Without a hook, and with no reserved key forced, the returned options
    are the original ones with the forced ones spread over them. *)
Lemma hook_free_options_reserved cwd tsconfig forced (σ : store) r σ' :
  (∀ k, k ∈ reserved → forced !! k = None) →
  hook_of tsconfig = None →
  getParsedCommandLine cwd tsconfig forced σ = (Normal r, σ') →
  (options <$> σ' !! parsedCommandLine r)
  = Some (spread (originalCompilerOptions r) forced).
Proof.
  intros Hfree Hhook Hrun. unfold spread.
  destruct tsconfig as [| p | f | [l | o | p h]]; try discriminate.
  1, 2: rewrite run_config_file in Hrun by done;
    destruct (_ || _); [|discriminate];
    unfold fresh_result, hooked, parsedConfigFile in *; cbn in *;
    injection Hrun as <- <-; cbn; rewrite lookup_insert_eq; cbn;
    by rewrite <- (parse_with_more_existing _ _ _ _ _ Hfree), (right_id_L ∅ (∪)).
  - destruct (σ !! l) as [p|] eqn:Hl.
    + rewrite (run_parsed _ _ _ _ _ Hl) in Hrun. injection Hrun as <- <-.
      cbn. by rewrite lookup_insert_eq.
    + by rewrite run_parsed_dangling in Hrun.
  - destruct (isRawCompilerOptions (TsObject (CompilerOptionsObject o))) eqn:Eraw.
    + destruct (isCompilerOptions (TsObject (CompilerOptionsObject o))) eqn:Eenum.
      * rewrite run_enum in Hrun by done. unfold fresh_result in *.
        injection Hrun as <- <-. cbn. rewrite lookup_insert_eq. cbn.
        unfold spread. by rewrite (parse_with_more_existing _ _ _ _ _ Hfree).
      * rewrite run_raw in Hrun by done. unfold fresh_result in *.
        injection Hrun as <- <-. cbn. rewrite lookup_insert_eq. cbn.
        rewrite <- parse_without_existing,
          <- (parse_with_more_existing _ _ _ _ _ Hfree).
        by rewrite (right_id_L ∅ (∪)).
    + by rewrite run_options_untyped in Hrun.
Qed.

(** With a hook that reacts to a forced option the returned options can
    have a key that no forced option and no base option has: here
    [declarationMap], whenever [declaration] is not reserved. *)
Lemma resolver_gets_declarationMap cwd (σ : store) r σ' :
  "declaration" ∉ reserved →
  getParsedCommandLine cwd (TsFunction withDeclarationMap) Project.forced σ
  = (Normal r, σ') →
  (σ' !! parsedCommandLine r ≫= λ p, options p !! "declarationMap")
  = Some (VBoolean true).
Proof.
  intros Hfree Hrun.
  pose proof (hook_options _ _ _ _ _ _ _ (eq_refl : hook_of (TsFunction _) = Some _) Hrun)
    as Hoptions.
  destruct (σ' !! parsedCommandLine r) as [p|]; [|discriminate].
  cbn in *. injection Hoptions as ->. unfold spread, parsedConfigFile.
  rewrite lookup_union_r by reflexivity.
  unfold withDeclarationMap. rewrite parser_law.
  destruct (decide ("declaration" ∈ reserved)); [done|].
  rewrite (lookup_union_Some_l _ _ "declaration" (VBoolean true)) by reflexivity.
  apply lookup_insert_eq.
Qed.

(** C5, amended. Take a parser whose returned options are its existing
    options laid over the options it returns without them, except on
    reserved keys, which it sets itself, and forced options that set no
    reserved key. Then two inputs without a hook (pre-parsed, enum-coded,
    raw, a path, or nothing) that have the same original options get the
    same options under the same forced options, namely
    [{...original, ...forced}]. *)
Theorem hook_free_variant_independence cwd tsconfig1 tsconfig2 forced
    (σ : store) r1 σ1 r2 σ2 :
  (∀ k, k ∈ reserved → forced !! k = None) →
  hook_of tsconfig1 = None →
  hook_of tsconfig2 = None →
  getParsedCommandLine cwd tsconfig1 forced σ = (Normal r1, σ1) →
  getParsedCommandLine cwd tsconfig2 forced σ = (Normal r2, σ2) →
  originalCompilerOptions r1 = originalCompilerOptions r2 →
  (options <$> σ1 !! parsedCommandLine r1)
  = Some (spread (originalCompilerOptions r1) forced)
  ∧ (options <$> σ2 !! parsedCommandLine r2) = (options <$> σ1 !! parsedCommandLine r1).
Proof.
  intros Hfree Hhook1 Hhook2 Hrun1 Hrun2 Horiginal.
  rewrite (hook_free_options_reserved _ _ _ _ _ _ Hfree Hhook1 Hrun1),
    (hook_free_options_reserved _ _ _ _ _ _ Hfree Hhook2 Hrun2).
  by rewrite Horiginal.
Qed.

End ReservedKeys.

(** The command line parsed beforehand from the configuration file of the
    sample project, and the path to that file. *)
Lemma hook_free_variant_independence_witness :
  ∃ r1 σ1 r2 σ2,
    @getParsedCommandLine Project.withConfigPath Project.cwd
      (TsObject (ParsedCommandLineObject 1)) Project.forced Project.parsedBeforehand
    = (Normal r1, σ1)
    ∧ @getParsedCommandLine Project.withConfigPath Project.cwd
        (TsString "tsconfig.json") Project.forced Project.parsedBeforehand
      = (Normal r2, σ2)
    ∧ (options <$> σ2 !! parsedCommandLine r2) = (options <$> σ1 !! parsedCommandLine r1).
Proof.
  eexists _, _, _, _. split; [reflexivity|]. split; [reflexivity|].
  apply (@hook_free_variant_independence Project.withConfigPath
           {[ "configFilePath" ]} (sample_with_path_law _ _) Project.cwd
           (TsObject (ParsedCommandLineObject 1)) (TsString "tsconfig.json")
           Project.forced Project.parsedBeforehand).
  - intros k ->%elem_of_singleton. reflexivity.
  - reflexivity.
  - reflexivity.
  - reflexivity.
  - reflexivity.
  - vm_compute. reflexivity.
Defined.

(** * Part III: further properties *)

(** ** Enum-coded records *)

Lemma numeric_field (o : CompilerOptions) (k : string) :
  has_property k (TsObject (CompilerOptionsObject o))
  && String.eqb (typeof_property k (TsObject (CompilerOptionsObject o))) "number" = true
  ↔ ∃ n, o !! k = Some (VNumber n).
Proof.
  cbn. destruct (o !! k) as [v|] eqn:Hk.
  - rewrite bool_decide_eq_true_2 by eauto. destruct v; cbn; split;
      try discriminate; try (intros [n [=]]); eauto.
  - rewrite bool_decide_eq_false_2 by (by intros [? ?]). cbn. split; [discriminate|].
    by intros [n ?].
Qed.

(** X1. [isCompilerOptions] holds exactly of the options records that
    have no [options] and no [hook] key and in which one of [module],
    [target], [jsx], [moduleResolution], [newLine] holds a number; a
    record whose enum fields are spelled as strings is not enum-coded. *)
Theorem isCompilerOptions_iff (tsconfig : TsConfig) :
  isCompilerOptions tsconfig = true ↔
  ∃ o, tsconfig = TsObject (CompilerOptionsObject o)
       ∧ o !! "options" = None ∧ o !! "hook" = None
       ∧ ∃ k n, k ∈ enumFields ∧ o !! k = Some (VNumber n).
Proof.
  destruct tsconfig as [| p | f | [l | o | p h]].
  1-4, 6: split; [discriminate | by intros (? & ? & _)].
  unfold isCompilerOptions.
  rewrite !andb_true_iff, !orb_true_iff, !numeric_field, !negb_true_iff.
  change (not_null (TsObject (CompilerOptionsObject o))) with true.
  change (typeof (TsObject (CompilerOptionsObject o))) with "object".
  change (has_property "options" (TsObject (CompilerOptionsObject o)))
    with (bool_decide (is_Some (o !! "options"))).
  change (has_property "hook" (TsObject (CompilerOptionsObject o)))
    with (bool_decide (is_Some (o !! "hook"))).
  rewrite !bool_decide_eq_false, <- !eq_None_not_Some.
  split.
  - intros [[[_ Ho] Hh] Henum]. exists o. repeat split; try done.
    destruct Henum as [[[[[n Hn] | [n Hn]] | [n Hn]] | [n Hn]] | [n Hn]];
      eexists _, n; (split; [|exact Hn]); unfold enumFields; set_solver.
  - intros (o' & [= <-] & Ho & Hh & k & n & Hk & Hn). repeat split; try done.
    unfold enumFields in Hk.
    repeat (apply elem_of_cons in Hk as [-> | Hk]; [by eauto 10|]).
    by apply elem_of_nil in Hk.
Qed.

Lemma isCompilerOptions_iff_witness :
  isCompilerOptions enumCoded = true
  ∧ isCompilerOptions (TsObject (CompilerOptionsObject {[ "target" := VString "ES2019" ]}))
    = false.
Proof.
  split.
  - apply isCompilerOptions_iff. exists {[ "module" := VNumber 1 ]}.
    repeat split. exists "module", 1%Z. split; [unfold enumFields; set_solver | reflexivity].
  - apply not_true_is_false. intros E.
    apply isCompilerOptions_iff in E as (o & [= <-] & _ & _ & k & n & Hk & Hn).
    unfold enumFields in Hk.
    repeat (apply elem_of_cons in Hk as [-> | Hk]; [by vm_compute in Hn|]).
    by apply elem_of_nil in Hk.
Defined.

(** ** Inputs that come to the same *)

Section SameRuns.
Context `{Toolchain}.

(** X2. A [{fileName, hook}] record whose file name resolves to the
    default configuration path runs exactly as the resolver function with
    the same hook: same outcome, same result, same store. *)
Theorem resolver_forms_agree cwd fileName hook forced (σ : store) :
  ensureAbsolute cwd fileName = ensureAbsolute cwd "tsconfig.json" →
  getParsedCommandLine cwd (TsObject (ResolverWithFileNameObject fileName hook)) forced σ
  = getParsedCommandLine cwd (TsFunction hook) forced σ.
Proof.
  intros Hpath. rewrite !run_config_file by done.
  unfold parsedConfigFile, configJson, configPath, hooked. cbn. by rewrite Hpath.
Qed.

(** X3. When the default configuration file exists, naming it (by any
    path that resolves to it) runs exactly as supplying nothing. *)
Theorem default_path_same_as_nothing cwd path forced (σ : store) :
  ensureAbsolute cwd path = ensureAbsolute cwd "tsconfig.json" →
  fileExistsSync (ensureAbsolute cwd "tsconfig.json") = true →
  getParsedCommandLine cwd (TsString path) forced σ
  = getParsedCommandLine cwd TsUndefined forced σ.
Proof.
  intros Hpath Hexists. rewrite !run_config_file by done.
  unfold parsedConfigFile, configJson, configPath, hooked. cbn.
  by rewrite Hpath, Hexists.
Qed.

End SameRuns.

Lemma resolver_forms_agree_witness :
  @getParsedCommandLine Project.withConfig Project.cwd
    (TsObject (ResolverWithFileNameObject "/project/tsconfig.json" withDeclarationMap))
    Project.forced Project.heap
  = @getParsedCommandLine Project.withConfig Project.cwd
      (TsFunction withDeclarationMap) Project.forced Project.heap.
Proof.
  apply (@resolver_forms_agree Project.withConfig). reflexivity.
Defined.

Lemma default_path_same_as_nothing_witness :
  @getParsedCommandLine Project.withConfig Project.cwd
    (TsString "/project/tsconfig.json") Project.forced Project.heap
  = @getParsedCommandLine Project.withConfig Project.cwd TsUndefined
      Project.forced Project.heap.
Proof.
  apply (@default_path_same_as_nothing Project.withConfig); reflexivity.
Defined.

(** ** Running twice *)

Lemma filter_twice {A} (P : A → Prop) `{∀ x, Decision (P x)} (l : list A) :
  filter P (filter P l) = filter P l.
Proof.
  induction l as [|x l IH]; [done|]. rewrite filter_cons.
  destruct (decide (P x)) as [Hx|Hx]; [|done].
  by rewrite filter_cons, decide_True, IH.
Qed.

Section Twice.
Context `{Toolchain}.

Lemma spread_twice (o forced : CompilerOptions) :
  spread (spread o forced) forced = spread o forced.
Proof. unfold spread. by rewrite (assoc_L (∪)), (idemp_L (∪)). Qed.

(** X5. Normalizing a pre-parsed command line a second time with the
    same forced options leaves the object as the first run made it; the
    second run reports as original options the ones the first run wrote,
    forced options included. *)
Theorem preparsed_twice cwd (l : loc) forced (σ : store) p :
  σ !! l = Some p →
  ∃ σ',
    getParsedCommandLine cwd (TsObject (ParsedCommandLineObject l)) forced σ
    = (Normal {| parsedCommandLine := l; originalCompilerOptions := options p |}, σ')
    ∧ getParsedCommandLine cwd (TsObject (ParsedCommandLineObject l)) forced σ'
      = (Normal {| parsedCommandLine := l;
                   originalCompilerOptions := spread (options p) forced |}, σ').
Proof.
  intros Hl. eexists. split; [by apply run_parsed|].
  erewrite run_parsed by apply lookup_insert_eq.
  rewrite insert_insert_eq. cbn. f_equal. f_equal.
  unfold declarationFilesOnly, set_fileNames, set_options. cbn.
  by rewrite spread_twice, filter_twice.
Qed.

End Twice.

Lemma preparsed_twice_witness :
  ∃ σ',
    @getParsedCommandLine Project.withoutConfig Project.cwd
      (TsObject (ParsedCommandLineObject 1)) Project.forced Project.heap
    = (Normal {| parsedCommandLine := 1;
                 originalCompilerOptions := options Project.preParsed |}, σ')
    ∧ @getParsedCommandLine Project.withoutConfig Project.cwd
        (TsObject (ParsedCommandLineObject 1)) Project.forced σ'
      = (Normal {| parsedCommandLine := 1;
                   originalCompilerOptions :=
                     spread (options Project.preParsed) Project.forced |}, σ').
Proof.
  apply (@preparsed_twice Project.withoutConfig). reflexivity.
Defined.

Lemma original_without_hook_witness :
  original_of (@getParsedCommandLine Project.withConfig Project.cwd
                 (TsString "tsconfig.json") Project.forced Project.heap)
  = original_of (@getParsedCommandLine Project.withConfig Project.cwd
                   (TsString "tsconfig.json") ∅ Project.heap).
Proof.
  destruct (@getParsedCommandLine Project.withConfig Project.cwd
              (TsString "tsconfig.json") Project.forced Project.heap)
    as [[r| |] σ'] eqn:Hrun; try (vm_compute in Hrun; discriminate).
  destruct (@getParsedCommandLine Project.withConfig Project.cwd
              (TsString "tsconfig.json") ∅ Project.heap)
    as [[r0| |] σ0] eqn:Hrun0; try (vm_compute in Hrun0; discriminate).
  cbn. f_equal.
  eapply (@original_without_hook Project.withConfig); [|exact Hrun|exact Hrun0].
  reflexivity.
Defined.

(** ** The forced options in the result *)

Section Forced.
Context `{Toolchain}.

(** X7. With a hook (a resolver function or a [{fileName, hook}]
    record), whatever the hook and the parser return, every forced option
    has its forced value in the options of the returned command line. *)
Theorem forced_options_survive_hook cwd tsconfig hook forced (σ : store) r σ' :
  hook_of tsconfig = Some hook →
  getParsedCommandLine cwd tsconfig forced σ = (Normal r, σ') →
  ∀ k v, forced !! k = Some v →
         (σ' !! parsedCommandLine r ≫= λ p, options p !! k) = Some v.
Proof.
  intros Hhook Hrun k v Hk.
  pose proof (hook_options _ _ _ _ _ _ _ Hhook Hrun) as Hoptions.
  destruct (σ' !! parsedCommandLine r) as [p|]; [|discriminate].
  cbn in *. injection Hoptions as ->. unfold spread. by apply lookup_union_Some_l.
Qed.

(** X8. When the parser gives its existing options precedence, every
    forced option has its forced value in the options of the returned
    command line, for every input. *)
Theorem forced_options_win cwd tsconfig forced (σ : store) r σ' :
  existing_options_first →
  getParsedCommandLine cwd tsconfig forced σ = (Normal r, σ') →
  ∀ k v, forced !! k = Some v →
         (σ' !! parsedCommandLine r ≫= λ p, options p !! k) = Some v.
Proof.
  intros Hlaw Hrun k v Hk.
  assert ((options <$> σ' !! parsedCommandLine r) = Some (spread
            (match hook_of tsconfig with
             | Some hook => hook (options (parsedConfigFile cwd tsconfig forced))
             | None => originalCompilerOptions r
             end) forced)) as Hoptions.
  { destruct (hook_of tsconfig) as [hook|] eqn:Hhook.
    - by apply (hook_options _ _ _ _ _ _ _ Hhook Hrun).
    - by apply (hook_free_options Hlaw _ _ _ _ _ _ Hhook Hrun). }
  destruct (σ' !! parsedCommandLine r) as [p|]; [|discriminate].
  cbn in *. injection Hoptions as ->. unfold spread. by apply lookup_union_Some_l.
Qed.

End Forced.

Lemma forced_options_survive_hook_witness :
  ∃ r σ',
    @getParsedCommandLine Project.withConfig Project.cwd (TsFunction (λ _, ∅))
      Project.forced Project.heap = (Normal r, σ')
    ∧ (σ' !! parsedCommandLine r ≫= λ p, options p !! "declaration")
      = Some (VBoolean true).
Proof.
  eexists _, _. split; [reflexivity|].
  apply (@forced_options_survive_hook Project.withConfig Project.cwd
           (TsFunction (λ _, ∅)) (λ _, ∅) Project.forced Project.heap);
    reflexivity.
Defined.

Lemma forced_options_win_witness :
  ∃ r σ',
    @getParsedCommandLine Project.withConfig Project.cwd
      (TsObject (CompilerOptionsObject {[ "declaration" := VBoolean false ]}))
      Project.forced Project.heap = (Normal r, σ')
    ∧ (σ' !! parsedCommandLine r ≫= λ p, options p !! "declaration")
      = Some (VBoolean true).
Proof.
  eexists _, _. split; [reflexivity|].
  apply (@forced_options_win Project.withConfig Project.cwd
           (TsObject (CompilerOptionsObject {[ "declaration" := VBoolean false ]}))
           Project.forced Project.heap).
  - apply sample_existing_options_first.
  - reflexivity.
  - reflexivity.
Defined.

(** ** Files and diagnostics of a configuration file *)

Section Returns.
Context `{Toolchain}.

(** X10. For the inputs resolved through a configuration file, hook or
    not, the returned command line has the diagnostics of the parse with
    the forced options and, in the same order, those of its files that
    end with the declaration extension: the hook changes the options
    only. *)
Theorem config_file_files_and_errors cwd tsconfig forced (σ : store) r σ' :
  resolves_file tsconfig = true →
  getParsedCommandLine cwd tsconfig forced σ = (Normal r, σ') →
  ∃ p, σ' !! parsedCommandLine r = Some p
       ∧ errors p = errors (parsedConfigFile cwd tsconfig forced)
       ∧ fileNames p
         = filter (λ file, endsWith file DECLARATION_EXTENSION = true)
                  (fileNames (parsedConfigFile cwd tsconfig forced)).
Proof.
  intros Hfile Hrun. rewrite (run_config_file _ _ _ _ Hfile) in Hrun.
  destruct (_ || _); [|discriminate].
  unfold fresh_result in Hrun. injection Hrun as <- <-.
  eexists. split; [apply lookup_insert_eq|]. done.
Qed.

End Returns.

Lemma config_file_files_and_errors_witness :
  ∃ r σ',
    @getParsedCommandLine Project.withConfig Project.cwd (TsFunction withDeclarationMap)
      Project.forced Project.heap = (Normal r, σ')
    ∧ ∃ p, σ' !! parsedCommandLine r = Some p ∧ errors p = []
           ∧ fileNames p = ["src/types.d.ts"].
Proof.
  eexists _, _. split; [reflexivity|].
  destruct (@config_file_files_and_errors Project.withConfig Project.cwd
              (TsFunction withDeclarationMap) Project.forced Project.heap _ _
              eq_refl eq_refl) as (p & Hp & Herrors & Hfiles).
  exists p. split; [exact Hp|]. split.
  - rewrite Herrors. reflexivity.
  - rewrite Hfiles. vm_compute. reflexivity.
Defined.

(** ** The two picks *)

(** X11. The ambient-preferring and the concrete pick of one record agree
    exactly when the record has no ambient resolution or its ambient
    resolution is the concrete one; and whenever the concrete pick is
    defined, so is the ambient-preferring one. *)
Theorem picks_agree_iff (ref : ExtendedResolvedModule) :
  (pickResolvedModule ref true = pickResolvedModule ref false ↔
   resolvedAmbientFileName ref = None
   ∨ resolvedAmbientFileName ref = resolvedFileName ref)
  ∧ (is_Some (pickResolvedModule ref false) → is_Some (pickResolvedModule ref true)).
Proof.
  unfold pickResolvedModule, nullish_coalesce.
  destruct (resolvedAmbientFileName ref) as [a|], (resolvedFileName ref) as [c|].
  - split; [split; [by right | by intros [E|E]] | eauto].
  - split; [split; [done | by intros [E|E]] | by intros [? ?]].
  - split; [split; [by left | done] | done].
  - split; [split; [by left | done] | done].
Qed.

Lemma picks_agree_iff_witness :
  pickResolvedModule scenarioD true ≠ pickResolvedModule scenarioD false
  ∧ is_Some (pickResolvedModule scenarioD true).
Proof.
  destruct (picks_agree_iff scenarioD) as [Hagree Hdefined]. split.
  - intros [E | E]%Hagree; discriminate.
  - apply Hdefined. cbn. eauto.
Defined.

(** ** Options records *)

Section OptionsRecords.
Context `{Toolchain}.

(** X12. An options record without [options] and [hook] keys always
    yields a new parsed command line. If one of its enum fields holds a
    number, the record itself (with the forced options spread over it) is
    the parser's existing options and the configuration object is empty;
    otherwise the record is the [compilerOptions] of the configuration
    object and only the forced options are the existing ones. *)
Theorem options_record_result cwd (o : CompilerOptions) forced (σ : store) :
  o !! "options" = None →
  o !! "hook" = None →
  getParsedCommandLine cwd (TsObject (CompilerOptionsObject o)) forced σ
  = if isCompilerOptions (TsObject (CompilerOptionsObject o))
    then fresh_result σ
           (options (parseJsonConfigFileContent (VObject ∅) cwd (Some o) None))
           (parseJsonConfigFileContent (VObject ∅) cwd (Some (spread o forced)) None)
    else fresh_result σ
           (options (parseJsonConfigFileContent
                       (VObject {[ "compilerOptions" := VObject o ]}) cwd None None))
           (parseJsonConfigFileContent
              (VObject {[ "compilerOptions" := VObject o ]}) cwd (Some forced) None).
Proof.
  intros Ho Hh.
  assert (isRawCompilerOptions (TsObject (CompilerOptionsObject o)) = true) as Eraw.
  { rewrite isRawCompilerOptions_options, Ho, Hh. reflexivity. }
  destruct (isCompilerOptions (TsObject (CompilerOptionsObject o))) eqn:Eenum.
  - by apply run_enum.
  - by apply run_raw.
Qed.

End OptionsRecords.

(** Scenario C: the raw record [{target: ES2019}] with the forced
    [declaration: true]. *)
Lemma options_record_result_witness :
  ∃ r σ',
    @getParsedCommandLine Project.withoutConfig Project.cwd
      (TsObject (CompilerOptionsObject {[ "target" := VString "ES2019" ]}))
      Project.forced ∅ = (Normal r, σ')
    ∧ originalCompilerOptions r !! "declaration" = None
    ∧ (σ' !! parsedCommandLine r ≫= λ p, options p !! "declaration")
      = Some (VBoolean true).
Proof.
  rewrite (@options_record_result Project.withoutConfig) by reflexivity.
  eexists _, _. split; [reflexivity|]. split; vm_compute; reflexivity.
Defined.
